(** * MeshMassProperties: volume, center of mass and inertia of a closed mesh

    A shallow embedding of [MeshMassProperties.cpp] and the properties of its
    routines.

    Numbers.  The source computes with Bullet's [btScalar], an IEEE-754
    binary floating-point type.  Here a [btScalar] is either a finite value,
    kept as an exact rational, or one of the special values +infinity,
    -infinity and NaN, combined by the IEEE-754 rules for special values.
    Arithmetic on finite values is exact: rounding, overflow to infinity and
    the sign of zero are outside the model, and the literals [0.1f], [0.05f]
    and [0.25f] stand for the rationals 1/10, 1/20 and 1/4.

    Vectors and matrices.  [btVector3] and [btMatrix3x3] come from the
    Bullet library; their operations ([+], [-], [*], [/], [dot], [cross],
    [length2], [setZero], [setIdentity], [m[i][j]]) are given their
    componentwise meaning.

    Failure.  The [assert]s of [computeMassProperties] are taken as active
    (a build without NDEBUG): a failed assertion ends the run, which the
    embedding writes as [None]. *)

From Stdlib Require Import ZArith NArith QArith Qcanon List Bool Lia Permutation.
Import ListNotations.

Set Implicit Arguments.
Local Close Scope Q_scope.
Local Close Scope Qc_scope.
Local Open Scope nat_scope.

(** ** Scalars *)

Inductive btScalar : Type :=
| Finite (q : Qc)
| PosInf
| NegInf
| NaN.

Definition qc (n : Z) (d : positive) : Qc := Q2Qc (n # d).

Definition fneg (x : btScalar) : btScalar :=
  match x with
  | Finite a => Finite (- a)%Qc
  | PosInf => NegInf
  | NegInf => PosInf
  | NaN => NaN
  end.

Definition fadd (x y : btScalar) : btScalar :=
  match x, y with
  | NaN, _ | _, NaN => NaN
  | Finite a, Finite b => Finite (a + b)%Qc
  | PosInf, NegInf | NegInf, PosInf => NaN
  | PosInf, _ | _, PosInf => PosInf
  | NegInf, _ | _, NegInf => NegInf
  end.

Definition fsub (x y : btScalar) : btScalar := fadd x (fneg y).

(** An infinity with the sign of [c] (the sign of a finite factor), NaN for
    a zero factor. *)
Definition signed_inf (positive : bool) (c : comparison) : btScalar :=
  match c with
  | Eq => NaN
  | Gt => if positive then PosInf else NegInf
  | Lt => if positive then NegInf else PosInf
  end.

Definition fmul (x y : btScalar) : btScalar :=
  match x, y with
  | NaN, _ | _, NaN => NaN
  | Finite a, Finite b => Finite (a * b)%Qc
  | PosInf, Finite b | Finite b, PosInf => signed_inf true (b ?= 0)%Qc
  | NegInf, Finite b | Finite b, NegInf => signed_inf false (b ?= 0)%Qc
  | PosInf, PosInf | NegInf, NegInf => PosInf
  | PosInf, NegInf | NegInf, PosInf => NegInf
  end.

Definition is_zero (a : Qc) : bool :=
  match (a ?= 0)%Qc with Eq => true | _ => false end.

(** Division.  A zero divisor is read as +0, the only zero that a sum started
    from [0.0f] can be: x/0 is NaN for x = 0 and an infinity of the sign of
    x otherwise. *)
Definition fdiv (x y : btScalar) : btScalar :=
  match x, y with
  | NaN, _ | _, NaN => NaN
  | Finite a, Finite b =>
      if is_zero b then signed_inf true (a ?= 0)%Qc else Finite (a / b)%Qc
  | Finite _, (PosInf | NegInf) => Finite 0%Qc
  | PosInf, Finite b =>
      match (b ?= 0)%Qc with Lt => NegInf | _ => PosInf end
  | NegInf, Finite b =>
      match (b ?= 0)%Qc with Lt => PosInf | _ => NegInf end
  | (PosInf | NegInf), (PosInf | NegInf) => NaN
  end.

(** [x > y]; every comparison with NaN is false. *)
Definition fgt (x y : btScalar) : bool :=
  match x, y with
  | NaN, _ | _, NaN => false
  | Finite a, Finite b => match (a ?= b)%Qc with Gt => true | _ => false end
  | PosInf, PosInf => false
  | PosInf, _ => true
  | _, PosInf => false
  | NegInf, _ => false
  | Finite _, NegInf => true
  end.

Definition is_finite (x : btScalar) : bool :=
  match x with Finite _ => true | _ => false end.

(** Structural comparison of two scalars (NaN is the same as NaN); this is
    the equality of the model, not the [==] of the source. *)
Definition same_scalar (x y : btScalar) : bool :=
  match x, y with
  | Finite a, Finite b => Qeq_bool a b
  | PosInf, PosInf | NegInf, NegInf | NaN, NaN => true
  | _, _ => false
  end.

Declare Scope bt_scope.
Delimit Scope bt_scope with bt.
Bind Scope bt_scope with btScalar.
Notation "x + y" := (fadd x y) : bt_scope.
Notation "x - y" := (fsub x y) : bt_scope.
Notation "x * y" := (fmul x y) : bt_scope.
Notation "x / y" := (fdiv x y) : bt_scope.
Notation "- x" := (fneg x) : bt_scope.

(** The literals of the source. *)
Definition f0 : btScalar := Finite 0%Qc.            (* 0.0f *)
Definition f1 : btScalar := Finite 1%Qc.            (* 1.0f *)
Definition f2 : btScalar := Finite (qc 2 1).        (* 2.0f *)
Definition f6 : btScalar := Finite (qc 6 1).        (* 6.0f *)
Definition f12 : btScalar := Finite (qc 12 1).      (* 12.0f *)
Definition f0_1 : btScalar := Finite (qc 1 10).     (* 0.1f *)
Definition f0_05 : btScalar := Finite (qc 1 20).    (* 0.05f *)
Definition f0_25 : btScalar := Finite (qc 1 4).     (* 0.25f *)

(** ** btVector3 *)

Record btVector3 : Type := mkVec { vx : btScalar; vy : btScalar; vz : btScalar }.

(** [v[i]], for the indices 0, 1, 2 that the source uses. *)
Definition vget (v : btVector3) (i : nat) : btScalar :=
  match i with
  | 0 => vx v
  | 1 => vy v
  | _ => vz v
  end.

Definition vset (v : btVector3) (i : nat) (x : btScalar) : btVector3 :=
  match i with
  | 0 => mkVec x (vy v) (vz v)
  | 1 => mkVec (vx v) x (vz v)
  | _ => mkVec (vx v) (vy v) x
  end.

Definition vzero : btVector3 := mkVec f0 f0 f0.

Definition vadd (a b : btVector3) : btVector3 :=
  mkVec (vx a + vx b)%bt (vy a + vy b)%bt (vz a + vz b)%bt.

Definition vsub (a b : btVector3) : btVector3 :=
  mkVec (vx a - vx b)%bt (vy a - vy b)%bt (vz a - vz b)%bt.

(** [s * v] *)
Definition vscale (s : btScalar) (v : btVector3) : btVector3 :=
  mkVec (vx v * s)%bt (vy v * s)%bt (vz v * s)%bt.

(** [v / s] *)
Definition vdiv (v : btVector3) (s : btScalar) : btVector3 :=
  mkVec (vx v / s)%bt (vy v / s)%bt (vz v / s)%bt.

Definition dot (a b : btVector3) : btScalar :=
  (vx a * vx b + vy a * vy b + vz a * vz b)%bt.

Definition cross (a b : btVector3) : btVector3 :=
  mkVec (vy a * vz b - vz a * vy b)%bt
        (vz a * vx b - vx a * vz b)%bt
        (vx a * vy b - vy a * vx b)%bt.

Definition length2 (v : btVector3) : btScalar := dot v v.

Definition same_vector (a b : btVector3) : bool :=
  same_scalar (vx a) (vx b) && same_scalar (vy a) (vy b)
  && same_scalar (vz a) (vz b).

(** ** btMatrix3x3: three rows *)

Record btMatrix3x3 : Type :=
  mkMat { row0 : btVector3; row1 : btVector3; row2 : btVector3 }.

Definition mrow (m : btMatrix3x3) (i : nat) : btVector3 :=
  match i with
  | 0 => row0 m
  | 1 => row1 m
  | _ => row2 m
  end.

(** [m[i][j]] *)
Definition mget (m : btMatrix3x3) (i j : nat) : btScalar := vget (mrow m i) j.

(** [m[i][j] = x] *)
Definition mset (m : btMatrix3x3) (i j : nat) (x : btScalar) : btMatrix3x3 :=
  match i with
  | 0 => mkMat (vset (row0 m) j x) (row1 m) (row2 m)
  | 1 => mkMat (row0 m) (vset (row1 m) j x) (row2 m)
  | _ => mkMat (row0 m) (row1 m) (vset (row2 m) j x)
  end.

Definition mzero : btMatrix3x3 := mkMat vzero vzero vzero.

Definition midentity : btMatrix3x3 :=
  mkMat (mkVec f1 f0 f0) (mkVec f0 f1 f0) (mkVec f0 f0 f1).

(** [a += b] *)
Definition madd (a b : btMatrix3x3) : btMatrix3x3 :=
  mkMat (vadd (row0 a) (row0 b)) (vadd (row1 a) (row1 b))
        (vadd (row2 a) (row2 b)).

Definition same_matrix (a b : btMatrix3x3) : bool :=
  same_vector (row0 a) (row0 b) && same_vector (row1 a) (row1 b)
  && same_vector (row2 a) (row2 b).

Definition symmetric (m : btMatrix3x3) : Prop :=
  mget m 0 1 = mget m 1 0 /\ mget m 0 2 = mget m 2 0 /\ mget m 1 2 = mget m 2 1.

(** ** The routines of MeshMassProperties.cpp *)

(** [btVector3* points], an array of four points. *)
Record TetraPoints : Type :=
  mkTetra { tp0 : btVector3; tp1 : btVector3; tp2 : btVector3; tp3 : btVector3 }.

Definition computeBoxInertia (mass : btScalar) (diagonal : btVector3)
    (inertia : btMatrix3x3) : btMatrix3x3 :=
  let mass := (mass / f12)%bt in
  let x := vget diagonal 0 in
  let x := (mass * x * x)%bt in
  let y := vget diagonal 1 in
  let y := (mass * y * y)%bt in
  let z := vget diagonal 2 in
  let z := (mass * z * z)%bt in
  let inertia := midentity in
  let inertia := mset inertia 0 0 (y + z)%bt in
  let inertia := mset inertia 1 1 (z + x)%bt in
  mset inertia 2 2 (x + y)%bt.

(** One pass of the loop of [computeTetrahedronInertia], for the axis [i]. *)
Definition tetrahedronInertia_axis (mass : btScalar) (points : TetraPoints)
    (inertia : btMatrix3x3) (i : nat) : btMatrix3x3 :=
  let p0 := tp0 points in
  let p1 := tp1 points in
  let p2 := tp2 points in
  let p3 := tp3 points in
  let j := (i + 1) mod 3 in
  let k := (j + 1) mod 3 in
  let diagonal :=
    (mass * f0_1 *
       ( vget p0 j * (vget p0 j + vget p1 j + vget p2 j + vget p3 j)
       + vget p1 j * (vget p1 j + vget p2 j + vget p3 j)
       + vget p2 j * (vget p2 j + vget p3 j)
       + vget p3 j * vget p3 j
       + vget p0 k * (vget p0 k + vget p1 k + vget p2 k + vget p3 k)
       + vget p1 k * (vget p1 k + vget p2 k + vget p3 k)
       + vget p2 k * (vget p2 k + vget p3 k)
       + vget p3 k * vget p3 k ))%bt in
  let inertia := mset inertia i i diagonal in
  let offDiagonal :=
    (- mass * f0_05 *
       ( f2 * ( vget p0 j * vget p0 k + vget p1 j * vget p1 k
              + vget p2 j * vget p2 k + vget p3 j * vget p3 k )
       + vget p0 j * (vget p1 k + vget p2 k + vget p3 k)
       + vget p1 j * (vget p0 k + vget p2 k + vget p3 k)
       + vget p2 j * (vget p0 k + vget p1 k + vget p3 k)
       + vget p3 j * (vget p0 k + vget p1 k + vget p2 k) ))%bt in
  let inertia := mset inertia k j offDiagonal in
  mset inertia j k offDiagonal.

Definition computeTetrahedronInertia (mass : btScalar) (points : TetraPoints)
    (inertia : btMatrix3x3) : btMatrix3x3 :=
  fold_left (tetrahedronInertia_axis mass points) [0; 1; 2] inertia.

Definition computeTetrahedronVolume (points : TetraPoints) : btScalar :=
  (dot (cross (vsub (tp2 points) (tp1 points)) (vsub (tp3 points) (tp2 points)))
       (vsub (tp3 points) (tp0 points)) / f6)%bt.

(** The inner loop of the two parallel-axis routines runs [j] from [i + 1]
    up to 2. *)
Definition above (i : nat) : list nat := seq (i + 1) (3 - (i + 1)).

Definition parallelAxis_row (shift : btVector3) (mass distanceSquared : btScalar)
    (inertia : btMatrix3x3) (i : nat) : btMatrix3x3 :=
  let shifti := vget shift i in
  let inertia :=
    mset inertia i i
      (mget inertia i i + mass * (distanceSquared - shifti * shifti))%bt in
  fold_left
    (fun inertia j =>
       let offDiagonal := (mass * shifti * vget shift j)%bt in
       let inertia := mset inertia i j (mget inertia i j - offDiagonal)%bt in
       mset inertia j i (mget inertia j i - offDiagonal)%bt)
    (above i) inertia.

Definition applyParallelAxisTheorem (inertia : btMatrix3x3) (shift : btVector3)
    (mass : btScalar) : btMatrix3x3 :=
  let distanceSquared := length2 shift in
  if fgt distanceSquared f0
  then fold_left (parallelAxis_row shift mass distanceSquared) [0; 1; 2] inertia
  else inertia.

Definition inverseParallelAxis_row (shift : btVector3)
    (mass distanceSquared : btScalar) (inertia : btMatrix3x3) (i : nat)
    : btMatrix3x3 :=
  let shifti := vget shift i in
  let inertia :=
    mset inertia i i
      (mget inertia i i - mass * (distanceSquared - shifti * shifti))%bt in
  fold_left
    (fun inertia j =>
       let offDiagonal := (mass * shifti * vget shift j)%bt in
       let inertia := mset inertia i j (mget inertia i j + offDiagonal)%bt in
       mset inertia j i (mget inertia j i + offDiagonal)%bt)
    (above i) inertia.

Definition applyInverseParallelAxisTheorem (inertia : btMatrix3x3)
    (shift : btVector3) (mass : btScalar) : btMatrix3x3 :=
  let distanceSquared := length2 shift in
  if fgt distanceSquared f0
  then fold_left (inverseParallelAxis_row shift mass distanceSquared)
         [0; 1; 2] inertia
  else inertia.

(** ** computeMassProperties *)

(** Modelled from the spec: [VectorOfPoints] and [VectorOfIndices] are
    declared in MeshMassProperties.h, which is not among the sources.  The
    spec has the vertex buffer as an ordered sequence of points and the
    triangle index list as a flat ordered sequence of unsigned integers. *)
Definition VectorOfPoints : Type := list btVector3.
Definition VectorOfIndices : Type := list N.

(** Conversion to [uint32_t]. *)
Definition wrap32 (n : N) : N := (n mod 2 ^ 32)%N.

(** Modelled from the spec: the class [MeshMassProperties] is declared in
    MeshMassProperties.h; these are the three members that
    [computeMassProperties] sets, with the types of the values assigned to
    them. *)
Record MeshMassProperties : Type :=
  mkMesh { m_volume : btScalar;
           m_centerOfMass : btVector3;
           m_inertia : btMatrix3x3 }.

(** The variables that live across the iterations of the triangle loop.
    [tetraInertia] is declared before the loop and handed by reference to
    [computeTetrahedronInertia] in every iteration. *)
Record Totals : Type :=
  mkTotals { t_volume : btScalar;
             t_weightedCenter : btVector3;
             t_inertia : btMatrix3x3;
             t_tetraInertia : btMatrix3x3 }.

(** [center = 0.25f * (tetraPoints[1] + tetraPoints[2] + tetraPoints[3])] *)
Definition tetraCenter (q1 q2 q3 : btVector3) : btVector3 :=
  vscale f0_25 (vadd (vadd q1 q2) q3).

(** The body of the loop from "compute volume" on, for the triangle with the
    vertices [q1 q2 q3]. *)
Definition accumulateTetrahedron (st : Totals) (q1 q2 q3 : btVector3) : Totals :=
  let p0 := mkVec f0 f0 f0 in
  let tetraPoints := mkTetra p0 q1 q2 q3 in
  let volume := computeTetrahedronVolume tetraPoints in
  let center := tetraCenter (tp1 tetraPoints) (tp2 tetraPoints) (tp3 tetraPoints) in
  let tetraPoints :=
    mkTetra (vsub (tp0 tetraPoints) center) (vsub (tp1 tetraPoints) center)
            (vsub (tp2 tetraPoints) center) (vsub (tp3 tetraPoints) center) in
  let tetraInertia :=
    computeTetrahedronInertia volume tetraPoints (t_tetraInertia st) in
  let tetraInertia := applyParallelAxisTheorem tetraInertia center volume in
  mkTotals (t_volume st + volume)%bt
           (vadd (t_weightedCenter st) (vscale volume center))
           (madd (t_inertia st) tetraInertia)
           tetraInertia.

(** [v[n]] for a [std::vector]; [None] stands for a read past the end. *)
Definition at_index {A : Type} (v : list A) (n : N) : option A :=
  nth_error v (N.to_nat n).

(** One iteration of the loop, for the loop counter [i]: the three
    assertions, the three vertex reads, and the accumulation. *)
Definition triangleStep (points : VectorOfPoints)
    (triangleIndices : VectorOfIndices) (st : Totals) (i : N) : option Totals :=
  let numPoints := wrap32 (N.of_nat (length points)) in
  let t := wrap32 (3 * i) in
  match at_index triangleIndices t,
        at_index triangleIndices (wrap32 (t + 1)),
        at_index triangleIndices (wrap32 (t + 2)) with
  | Some i0, Some i1, Some i2 =>
      if ((i0 <? numPoints) && (i1 <? numPoints) && (i2 <? numPoints))%N
      then
        match at_index points i0, at_index points i1, at_index points i2 with
        | Some q1, Some q2, Some q3 => Some (accumulateTetrahedron st q1 q2 q3)
        | _, _, _ => None
        end
      else None
  | _, _, _ => None
  end.

(** The loop, over the successive values of its counter. *)
Fixpoint triangleLoop (points : VectorOfPoints)
    (triangleIndices : VectorOfIndices) (counters : list N) (st : Totals)
    : option Totals :=
  match counters with
  | [] => Some st
  | i :: rest =>
      match triangleStep points triangleIndices st i with
      | Some st' => triangleLoop points triangleIndices rest st'
      | None => None
      end
  end.

(** The values 0, 1, ..., n-1 of a [uint32_t] counter. *)
Definition counters (n : N) : list N := map N.of_nat (seq 0 (N.to_nat n)).

Definition numTriangles (triangleIndices : VectorOfIndices) : N :=
  wrap32 (N.of_nat (length triangleIndices) / 3).

Definition initialTotals (tetraInertia : btMatrix3x3) : Totals :=
  mkTotals f0 vzero mzero tetraInertia.

(** What follows the loop: the division and the final shift. *)
Definition finish (st : Totals) : MeshMassProperties :=
  let m_volume := t_volume st in
  let m_centerOfMass := vdiv (t_weightedCenter st) m_volume in
  mkMesh m_volume m_centerOfMass
         (applyInverseParallelAxisTheorem (t_inertia st) m_centerOfMass m_volume).

(** [computeMassProperties], started with [tetraInertia] holding the matrix
    [uninitialized]: the source declares it without a value. *)
Definition computeMassProperties_from (uninitialized : btMatrix3x3)
    (points : VectorOfPoints) (triangleIndices : VectorOfIndices)
    : option MeshMassProperties :=
  match triangleLoop points triangleIndices
          (counters (numTriangles triangleIndices))
          (initialTotals uninitialized) with
  | Some st => Some (finish st)
  | None => None
  end.

(** No entry of [tetraInertia] is read before [computeTetrahedronInertia]
    has written it (lemma [computeMassProperties_from_any] below), so the
    start value is immaterial; zero is taken. *)
Definition computeMassProperties (points : VectorOfPoints)
    (triangleIndices : VectorOfIndices) : option MeshMassProperties :=
  computeMassProperties_from mzero points triangleIndices.

(** ** Views of the triangle loop *)

(** The totals when the loop has run to its end. *)
Definition loopTotals (points : VectorOfPoints)
    (triangleIndices : VectorOfIndices) : option Totals :=
  triangleLoop points triangleIndices
    (counters (numTriangles triangleIndices)) (initialTotals mzero).

(** The accumulated [m_volume] at the end of the loop. *)
Definition accumulatedVolume (points : VectorOfPoints)
    (triangleIndices : VectorOfIndices) : option btScalar :=
  option_map t_volume (loopTotals points triangleIndices).

(** The totals after the first [k] iterations of the loop. *)
Definition totalsAfter (k : nat) (uninitialized : btMatrix3x3)
    (points : VectorOfPoints) (triangleIndices : VectorOfIndices)
    : option Totals :=
  triangleLoop points triangleIndices
    (firstn k (counters (numTriangles triangleIndices)))
    (initialTotals uninitialized).

(** The complete triples of an index list of length [n]: its first
    [3 * (n / 3)] entries. *)
Definition completeTriples (triangleIndices : VectorOfIndices) : VectorOfIndices :=
  firstn (3 * (length triangleIndices / 3)) triangleIndices.

Definition Triangle : Type := (N * N * N)%type.

(** The consecutive triples of an index list. *)
Fixpoint triples (l : VectorOfIndices) : list Triangle :=
  match l with
  | i0 :: i1 :: i2 :: rest => (i0, i1, i2) :: triples rest
  | _ => []
  end.

(** The three indices that iteration [i] of the loop reads. *)
Definition triangleAt (triangleIndices : VectorOfIndices) (i : N)
    : option Triangle :=
  let t := wrap32 (3 * i) in
  match at_index triangleIndices t,
        at_index triangleIndices (wrap32 (t + 1)),
        at_index triangleIndices (wrap32 (t + 2)) with
  | Some i0, Some i1, Some i2 => Some (i0, i1, i2)
  | _, _, _ => None
  end.

Definition inRange (numPoints : N) (tri : Triangle) : bool :=
  let '(i0, i1, i2) := tri in
  ((i0 <? numPoints) && (i1 <? numPoints) && (i2 <? numPoints))%N.

(** The assertions, the vertex reads and the accumulation for one triangle. *)
Definition stepOn (points : VectorOfPoints) (st : Totals) (tri : Triangle)
    : option Totals :=
  let '(i0, i1, i2) := tri in
  if inRange (wrap32 (N.of_nat (length points))) tri
  then
    match at_index points i0, at_index points i1, at_index points i2 with
    | Some q1, Some q2, Some q3 => Some (accumulateTetrahedron st q1 q2 q3)
    | _, _, _ => None
    end
  else None.

Fixpoint foldTriples (points : VectorOfPoints) (tris : list Triangle)
    (st : Totals) : option Totals :=
  match tris with
  | [] => Some st
  | tri :: rest =>
      match stepOn points st tri with
      | Some st' => foldTriples points rest st'
      | None => None
      end
  end.

(** ** Structural comparison of results *)

Definition same_mesh (a b : MeshMassProperties) : bool :=
  same_scalar (m_volume a) (m_volume b)
  && same_vector (m_centerOfMass a) (m_centerOfMass b)
  && same_matrix (m_inertia a) (m_inertia b).

Definition same_result (a b : option MeshMassProperties) : bool :=
  match a, b with
  | Some x, Some y => same_mesh x y
  | None, None => true
  | _, _ => false
  end.

(** ** Finite values: vectors and matrices of rationals *)

Record qvec : Type := mkQ { qx : Qc; qy : Qc; qz : Qc }.

Definition finV (v : qvec) : btVector3 :=
  mkVec (Finite (qx v)) (Finite (qy v)) (Finite (qz v)).

Record qmat : Type := mkQM { q0 : qvec; q1 : qvec; q2 : qvec }.


(** ** Arithmetic on finite values *)

Definition qsub (a b : qvec) : qvec :=
  mkQ (qx a - qx b)%Qc (qy a - qy b)%Qc (qz a - qz b)%Qc.

Definition qadd (a b : qvec) : qvec :=
  mkQ (qx a + qx b)%Qc (qy a + qy b)%Qc (qz a + qz b)%Qc.

Definition qscale (s : Qc) (a : qvec) : qvec :=
  mkQ (s * qx a)%Qc (s * qy a)%Qc (s * qz a)%Qc.

Definition qdot (a b : qvec) : Qc :=
  (qx a * qx b + qy a * qy b + qz a * qz b)%Qc.

Definition qcross (a b : qvec) : qvec :=
  mkQ (qy a * qz b - qz a * qy b)%Qc
      (qz a * qx b - qx a * qz b)%Qc
      (qx a * qy b - qy a * qx b)%Qc.

Definition qzero : qvec := mkQ 0%Qc 0%Qc 0%Qc.

(** Four finite points as the array handed to the tetrahedron routines. *)
Definition tetra (p0 p1 p2 p3 : qvec) : TetraPoints :=
  mkTetra (finV p0) (finV p1) (finV p2) (finV p3).

(** One sixth of the triple product [(p2-p1) x (p3-p2) . (p3-p0)]. *)
Definition faceVolume (p0 p1 p2 p3 : qvec) : Qc :=
  (qdot (qcross (qsub p2 p1) (qsub p3 p2)) (qsub p3 p0) / qc 6 1)%Qc.



Definition qmzero : qmat := mkQM qzero qzero qzero.



(** The average of three points, as a reading of "centroid of the
    triangle": [(a + b + c) / 3]. *)
Definition triangleAverage (a b c : btVector3) : btVector3 :=
  vdiv (vadd (vadd a b) c) (Finite (qc 3 1)).

Definition no_finite_component (v : btVector3) : Prop :=
  is_finite (vx v) = false /\ is_finite (vy v) = false
  /\ is_finite (vz v) = false.

(** ** The formulas of the leaf routines on finite values *)





(** The formulas of the parallel-axis routines, without the test on the
    length of the offset. *)
Definition qParallelAxis (a : qmat) (s : qvec) (mass : Qc) : qmat :=
  let d := qdot s s in
  mkQM (mkQ (qx (q0 a) + mass * (d - qx s * qx s))
            (qy (q0 a) - mass * qx s * qy s)
            (qz (q0 a) - mass * qx s * qz s))%Qc
       (mkQ (qx (q1 a) - mass * qx s * qy s)
            (qy (q1 a) + mass * (d - qy s * qy s))
            (qz (q1 a) - mass * qy s * qz s))%Qc
       (mkQ (qx (q2 a) - mass * qx s * qz s)
            (qy (q2 a) - mass * qy s * qz s)
            (qz (q2 a) + mass * (d - qz s * qz s)))%Qc.


(** ** Moments of an oriented tetrahedron

    For the tetrahedron with the corners p0, p1, p2, p3 and unit density:
    the signed volume, the first moment (volume times centroid) and the
    inertia tensor about the origin of the frame.  The second moments are
    V/20 * (sum_m p_m[i] p_m[j] + (sum_m p_m[i]) (sum_m p_m[j])). *)















(** ** Closed meshes *)









(** ** Meshes with finite vertices *)






(** ** Example meshes *)

(** The cube with the corners (+-1/2, +-1/2, +-1/2); corner [4a + 2b + c]
    has the signs [a], [b], [c] (0 for -, 1 for +). *)
Definition half : Qc := qc 1 2.
Definition cornerQ (a b c : bool) : qvec :=
  let s (x : bool) := if x then half else (- half)%Qc in
  mkQ (s a) (s b) (s c).

Definition corner (a b c : bool) : btVector3 := finV (cornerQ a b c).

Definition cubeCorners : list qvec :=
  [ cornerQ false false false; cornerQ false false true;
    cornerQ false true false;  cornerQ false true true;
    cornerQ true false false;  cornerQ true false true;
    cornerQ true true false;   cornerQ true true true ].

Definition cubePoints : VectorOfPoints := map finV cubeCorners.

(** A face is given by its four corners in counter-clockwise order seen from
    outside; it is cut along one diagonal or the other. *)
Definition faceTriangles (a b c d : N) (otherDiagonal : bool) : list N :=
  if otherDiagonal then [a; b; d; b; c; d] else [a; b; c; a; c; d].

Definition cubeTriangles (d0 d1 d2 d3 d4 d5 : bool) : VectorOfIndices :=
  (faceTriangles 0 1 3 2 d0        (* x = -1/2 *)
   ++ faceTriangles 4 6 7 5 d1     (* x = +1/2 *)
   ++ faceTriangles 0 4 5 1 d2     (* y = -1/2 *)
   ++ faceTriangles 2 3 7 6 d3     (* y = +1/2 *)
   ++ faceTriangles 0 2 6 4 d4     (* z = -1/2 *)
   ++ faceTriangles 1 5 7 3 d5)%N. (* z = +1/2 *)

Definition cubeResult : MeshMassProperties :=
  mkMesh f1 vzero
         (mkMat (mkVec (Finite (qc 1 6)) f0 f0)
                (mkVec f0 (Finite (qc 1 6)) f0)
                (mkVec f0 f0 (Finite (qc 1 6)))).

(** Two triangles of the cube, one on the face x = -1/2 wound outward and
    its mirror image on the face x = +1/2 wound inward: an open surface
    whose two tetrahedra cancel. *)
Definition sheetTriangles : VectorOfIndices := [0; 1; 3; 4; 5; 7]%N.

Definition sheetResult : MeshMassProperties :=
  mkMesh f0 (mkVec NegInf NaN NaN)
         (mkMat (mkVec f0 (Finite (qc (-1) 120)) (Finite (qc 1 120)))
                (mkVec (Finite (qc (-1) 120)) f0 f0)
                (mkVec (Finite (qc 1 120)) f0 f0)).

(** ** The remaining routines and the meshes of further properties *)

(** One pass of the outer loop of [computePointInertia]. *)
Definition pointInertia_row (point : btVector3) (mass distanceSquared : btScalar)
    (inertia : btMatrix3x3) (i : nat) : btMatrix3x3 :=
  let pointi := vget point i in
  let inertia :=
    mset inertia i i (mass * (distanceSquared - pointi * pointi))%bt in
  fold_left
    (fun inertia j =>
       let offDiagonal := (- mass * pointi * vget point j)%bt in
       let inertia := mset inertia i j offDiagonal in
       mset inertia j i offDiagonal)
    (above i) inertia.

Definition computePointInertia (point : btVector3) (mass : btScalar)
    (inertia : btMatrix3x3) : btMatrix3x3 :=
  let distanceSquared := length2 point in
  if fgt distanceSquared f0
  then fold_left (pointInertia_row point mass distanceSquared) [0; 1; 2] inertia
  else inertia.


(** mass * (|p|^2 E - p p^T), the inertia of a point mass about the origin. *)
Definition qPointInertia (p : qvec) (mass : Qc) : qmat :=
  qParallelAxis qmzero p mass.














(** * Properties *)

(** ** Equality from the structural comparisons *)

Lemma same_scalar_eq (x y : btScalar) : same_scalar x y = true -> x = y.
Proof.
  destruct x as [a| | |], y as [b| | |]; simpl; try discriminate; auto.
  intros H. f_equal. apply Qc_is_canon. now apply Qeq_bool_iff.
Qed.

Lemma same_vector_eq (a b : btVector3) : same_vector a b = true -> a = b.
Proof.
  destruct a, b; unfold same_vector; simpl.
  rewrite !andb_true_iff. intros [[H1 H2] H3].
  f_equal; now apply same_scalar_eq.
Qed.

Lemma same_matrix_eq (a b : btMatrix3x3) : same_matrix a b = true -> a = b.
Proof.
  destruct a, b; unfold same_matrix; simpl.
  rewrite !andb_true_iff. intros [[H1 H2] H3].
  f_equal; now apply same_vector_eq.
Qed.

Lemma same_mesh_eq (a b : MeshMassProperties) : same_mesh a b = true -> a = b.
Proof.
  destruct a, b; unfold same_mesh; simpl.
  rewrite !andb_true_iff. intros [[H1 H2] H3].
  f_equal; auto using same_scalar_eq, same_vector_eq, same_matrix_eq.
Qed.

Lemma same_result_eq (a b : option MeshMassProperties) :
  same_result a b = true -> a = b.
Proof.
  destruct a, b; simpl; try discriminate; auto.
  intros H. f_equal. now apply same_mesh_eq.
Qed.

(** ** Rational literals and finite arithmetic *)

Lemma qc_2 : qc 2 1 = (1 + 1)%Qc.
Proof. apply Qc_is_canon. reflexivity. Qed.

Lemma qc_3 : qc 3 1 = (1 + 1 + 1)%Qc.
Proof. apply Qc_is_canon. reflexivity. Qed.

Lemma qc_6 : qc 6 1 = ((1 + 1) * (1 + 1 + 1))%Qc.
Proof. apply Qc_is_canon. reflexivity. Qed.

Lemma qc_quarter : qc 1 4 = (/ ((1 + 1) * (1 + 1)))%Qc.
Proof. apply Qc_is_canon. reflexivity. Qed.

Lemma qc_tenth : qc 1 10 = (/ ((1 + 1) * (1 + 1 + 1 + 1 + 1)))%Qc.
Proof. apply Qc_is_canon. reflexivity. Qed.

Lemma qc_twentieth :
  qc 1 20 = (/ ((1 + 1) * (1 + 1) * (1 + 1 + 1 + 1 + 1)))%Qc.
Proof. apply Qc_is_canon. reflexivity. Qed.

(** Rewrites the rational literals into sums of ones, which [ring] and
    [field] read as numbers. *)
Ltac qc_literals :=
  rewrite ?qc_2, ?qc_3, ?qc_6, ?qc_quarter, ?qc_tenth, ?qc_twentieth.

Ltac qc_field := qc_literals; field; repeat split; discriminate.

Lemma is_zero_true (a : Qc) : is_zero a = true <-> a = 0%Qc.
Proof.
  unfold is_zero. destruct (a ?= 0)%Qc eqn:E.
  - split; auto. intros _. now apply Qceq_alt.
  - split; try discriminate. intros ->. rewrite (proj1 (Qceq_alt 0 0) eq_refl) in E.
    discriminate.
  - split; try discriminate. intros ->. rewrite (proj1 (Qceq_alt 0 0) eq_refl) in E.
    discriminate.
Qed.

Lemma fdiv_finite (a b : Qc) :
  b <> 0%Qc -> (Finite a / Finite b)%bt = Finite (a / b)%Qc.
Proof.
  intros Hb. simpl. destruct (is_zero b) eqn:E; auto.
  apply is_zero_true in E. contradiction.
Qed.

Lemma fdiv_f6 (a : Qc) : (Finite a / f6)%bt = Finite (a / qc 6 1)%Qc.
Proof. apply fdiv_finite. discriminate. Qed.




(** Symbolic evaluation of the scalar operations on finite arguments. *)
Ltac fin_arith := cbn [fadd fsub fmul fneg].

(** ** The loops of the leaf routines, unrolled *)

Lemma computeTetrahedronInertia_unrolled (mass : btScalar)
    (points : TetraPoints) (inertia : btMatrix3x3) :
  computeTetrahedronInertia mass points inertia =
  let m := fun i => tetrahedronInertia_axis mass points mzero i in
  mkMat (mkVec (mget (m 0) 0 0) (mget (m 2) 0 1) (mget (m 1) 0 2))
        (mkVec (mget (m 2) 1 0) (mget (m 1) 1 1) (mget (m 0) 1 2))
        (mkVec (mget (m 1) 2 0) (mget (m 0) 2 1) (mget (m 2) 2 2)).
Proof. reflexivity. Qed.

Lemma applyParallelAxisTheorem_unrolled (a : btMatrix3x3) (s : btVector3)
    (mass : btScalar) :
  applyParallelAxisTheorem a s mass =
  let d := length2 s in
  if fgt d f0 then
    mkMat
      (mkVec (mget a 0 0 + mass * (d - vx s * vx s))
             (mget a 0 1 - mass * vx s * vy s)
             (mget a 0 2 - mass * vx s * vz s))
      (mkVec (mget a 1 0 - mass * vx s * vy s)
             (mget a 1 1 + mass * (d - vy s * vy s))
             (mget a 1 2 - mass * vy s * vz s))
      (mkVec (mget a 2 0 - mass * vx s * vz s)
             (mget a 2 1 - mass * vy s * vz s)
             (mget a 2 2 + mass * (d - vz s * vz s)))%bt
  else a.
Proof.
  unfold applyParallelAxisTheorem. cbv zeta.
  destruct (fgt (length2 s) f0); reflexivity.
Qed.

Lemma applyInverseParallelAxisTheorem_unrolled (a : btMatrix3x3)
    (s : btVector3) (mass : btScalar) :
  applyInverseParallelAxisTheorem a s mass =
  let d := length2 s in
  if fgt d f0 then
    mkMat
      (mkVec (mget a 0 0 - mass * (d - vx s * vx s))
             (mget a 0 1 + mass * vx s * vy s)
             (mget a 0 2 + mass * vx s * vz s))
      (mkVec (mget a 1 0 + mass * vx s * vy s)
             (mget a 1 1 - mass * (d - vy s * vy s))
             (mget a 1 2 + mass * vy s * vz s))
      (mkVec (mget a 2 0 + mass * vx s * vz s)
             (mget a 2 1 + mass * vy s * vz s)
             (mget a 2 2 - mass * (d - vz s * vz s)))%bt
  else a.
Proof.
  unfold applyInverseParallelAxisTheorem. cbv zeta.
  destruct (fgt (length2 s) f0); reflexivity.
Qed.

Lemma computeTetrahedronInertia_symmetric (mass : btScalar)
    (points : TetraPoints) (inertia : btMatrix3x3) :
  symmetric (computeTetrahedronInertia mass points inertia).
Proof. repeat split. Qed.

Lemma applyParallelAxisTheorem_symmetric (a : btMatrix3x3) (s : btVector3)
    (mass : btScalar) :
  symmetric a -> symmetric (applyParallelAxisTheorem a s mass).
Proof.
  intros H. rewrite applyParallelAxisTheorem_unrolled.
  cbv zeta. destruct (fgt (length2 s) f0); [|assumption].
  unfold symmetric in *. cbn [mget mrow vget row0 row1 row2 vx vy vz] in *.
  destruct H as (H01 & H02 & H12). rewrite H01, H02, H12. repeat split.
Qed.

Lemma applyInverseParallelAxisTheorem_symmetric (a : btMatrix3x3)
    (s : btVector3) (mass : btScalar) :
  symmetric a -> symmetric (applyInverseParallelAxisTheorem a s mass).
Proof.
  intros H. rewrite applyInverseParallelAxisTheorem_unrolled.
  cbv zeta. destruct (fgt (length2 s) f0); [|assumption].
  unfold symmetric in *. cbn [mget mrow vget row0 row1 row2 vx vy vz] in *.
  destruct H as (H01 & H02 & H12). rewrite H01, H02, H12. repeat split.
Qed.

Lemma madd_symmetric (a b : btMatrix3x3) :
  symmetric a -> symmetric b -> symmetric (madd a b).
Proof.
  intros (A01 & A02 & A12) (B01 & B02 & B12).
  unfold symmetric, madd, vadd in *.
  cbn [mget mrow vget row0 row1 row2 vx vy vz] in *.
  rewrite A01, A02, A12, B01, B02, B12. repeat split.
Qed.

Lemma mzero_symmetric : symmetric mzero.
Proof. repeat split. Qed.

(** ** computeTetrahedronVolume *)

Lemma computeTetrahedronVolume_finite (p0 p1 p2 p3 : qvec) :
  computeTetrahedronVolume (tetra p0 p1 p2 p3) = Finite (faceVolume p0 p1 p2 p3).
Proof.
  unfold computeTetrahedronVolume, tetra, dot, cross, vsub, finV.
  cbn [tp0 tp1 tp2 tp3 vx vy vz]. fin_arith. rewrite fdiv_f6. reflexivity.
Qed.




(** ** The parallel-axis routines *)


(** ** The unit cube *)


(** ** The triangle loop: which entries it reads *)

Lemma in_counters (i n : N) : In i (counters n) <-> (i < n)%N.
Proof.
  unfold counters. rewrite in_map_iff. split.
  - intros (k & <- & Hk). apply in_seq in Hk. lia.
  - intros Hi. exists (N.to_nat i). split; [lia|]. apply in_seq. lia.
Qed.

Lemma wrap32_le (n : N) : (wrap32 n <= n)%N.
Proof. unfold wrap32. apply N.Div0.mod_le. Qed.

Lemma numTriangles_le (idx : VectorOfIndices) :
  (numTriangles idx <= N.of_nat (length idx / 3))%N.
Proof.
  unfold numTriangles. etransitivity; [apply wrap32_le|].
  change 3%N with (N.of_nat 3). rewrite <- Nat2N.inj_div. lia.
Qed.

(** The three positions read in iteration [i] lie among the complete
    triples. *)
Lemma read_positions (idx : VectorOfIndices) (i : N) :
  (i < numTriangles idx)%N ->
  let t := wrap32 (3 * i) in
  N.to_nat t < 3 * (length idx / 3)
  /\ N.to_nat (wrap32 (t + 1)) < 3 * (length idx / 3)
  /\ N.to_nat (wrap32 (t + 2)) < 3 * (length idx / 3).
Proof.
  intros Hi t. pose proof (numTriangles_le idx) as Hn.
  pose proof (wrap32_le (3 * i)) as H0.
  pose proof (wrap32_le (t + 1)) as H1.
  pose proof (wrap32_le (t + 2)) as H2.
  fold t in H0. lia.
Qed.

Lemma at_index_firstn (A : Type) (l : list A) (k : nat) (n : N) :
  N.to_nat n < k -> at_index (firstn k l) n = at_index l n.
Proof.
  unfold at_index. generalize (N.to_nat n) as m. clear n.
  revert l. induction k as [|k IH]; intros l m Hm; [lia|].
  destruct l as [|x l]; [reflexivity|].
  destruct m as [|m]; [reflexivity|]. simpl. apply IH. lia.
Qed.

Lemma at_index_some (A : Type) (l : list A) (n : N) :
  N.to_nat n < length l -> exists x, at_index l n = Some x /\ In x l.
Proof.
  unfold at_index. intros H.
  destruct (nth_error l (N.to_nat n)) as [x|] eqn:E.
  - exists x. split; [reflexivity|]. eapply nth_error_In; eauto.
  - apply nth_error_None in E. lia.
Qed.

Lemma length_completeTriples (idx : VectorOfIndices) :
  length (completeTriples idx) = 3 * (length idx / 3).
Proof.
  unfold completeTriples. rewrite length_firstn.
  pose proof (Nat.Div0.mul_div_le (length idx) 3). lia.
Qed.

Lemma numTriangles_completeTriples (idx : VectorOfIndices) :
  numTriangles (completeTriples idx) = numTriangles idx.
Proof.
  unfold numTriangles. rewrite length_completeTriples.
  change 3%N with (N.of_nat 3). rewrite <- !Nat2N.inj_div.
  now rewrite (Nat.mul_comm 3), Nat.div_mul by lia.
Qed.

Lemma triangleStep_completeTriples (points : VectorOfPoints)
    (idx : VectorOfIndices) (st : Totals) (i : N) :
  (i < numTriangles idx)%N ->
  triangleStep points (completeTriples idx) st i = triangleStep points idx st i.
Proof.
  intros Hi. destruct (read_positions idx Hi) as (H0 & H1 & H2).
  unfold triangleStep, completeTriples. cbv zeta.
  now rewrite !at_index_firstn by assumption.
Qed.

Lemma triangleLoop_ext (points : VectorOfPoints) (idx idx' : VectorOfIndices)
    (cs : list N) :
  (forall i st, In i cs ->
     triangleStep points idx st i = triangleStep points idx' st i) ->
  forall st, triangleLoop points idx cs st = triangleLoop points idx' cs st.
Proof.
  induction cs as [|i cs IH]; intros H st; [reflexivity|].
  simpl. rewrite H by (left; reflexivity).
  destruct (triangleStep points idx' st i); [|reflexivity].
  apply IH. intros j st' Hj. apply H. now right.
Qed.

Lemma computeMassProperties_from_completeTriples (u : btMatrix3x3)
    (points : VectorOfPoints) (idx : VectorOfIndices) :
  computeMassProperties_from u points (completeTriples idx)
  = computeMassProperties_from u points idx.
Proof.
  unfold computeMassProperties_from.
  rewrite numTriangles_completeTriples.
  rewrite (triangleLoop_ext points (completeTriples idx) idx); [reflexivity|].
  intros i st Hi. apply triangleStep_completeTriples. now apply in_counters.
Qed.

(** C10.  The result of [computeMassProperties] depends only on the first
    3 * floor(n/3) entries of an index list of length n: it is the result
    for the list cut to that length, so that one or two trailing indices are
    ignored, and two lists with the same complete triples give the same
    result. *)
Theorem trailing_indices_ignored (points : VectorOfPoints) :
  (forall idx : VectorOfIndices,
     computeMassProperties points idx
     = computeMassProperties points
         (firstn (3 * (length idx / 3)) idx))
  /\ (forall idx idx' : VectorOfIndices,
        firstn (3 * (length idx / 3)) idx
        = firstn (3 * (length idx' / 3)) idx' ->
        computeMassProperties points idx = computeMassProperties points idx').
Proof.
  assert (H : forall idx, computeMassProperties points idx
                          = computeMassProperties points (completeTriples idx)).
  { intros idx. unfold computeMassProperties.
    now rewrite computeMassProperties_from_completeTriples. }
  split; [exact H|].
  intros idx idx' E. rewrite (H idx), (H idx'). unfold completeTriples.
  now rewrite E.
Qed.

Lemma trailing_indices_ignored_witness :
  firstn (3 * (length [0; 1; 3; 7]%N / 3)) [0; 1; 3; 7]%N
  = firstn (3 * (length [0; 1; 3; 2; 5]%N / 3)) [0; 1; 3; 2; 5]%N
  /\ computeMassProperties cubePoints [0; 1; 3; 7]%N
     = computeMassProperties cubePoints [0; 1; 3; 2; 5]%N.
Proof.
  split; [reflexivity|].
  apply (proj2 (trailing_indices_ignored cubePoints)). reflexivity.
Defined.

(** ** The triangle loop: the assertions *)

Lemma triangleStep_some (points : VectorOfPoints) (idx : VectorOfIndices)
    (st : Totals) (i : N) :
  Forall (fun a => (a < wrap32 (N.of_nat (length points)))%N)
         (completeTriples idx) ->
  (i < numTriangles idx)%N ->
  exists st', triangleStep points idx st i = Some st'.
Proof.
  intros Hall Hi. rewrite <- triangleStep_completeTriples by assumption.
  destruct (read_positions idx Hi) as (H0 & H1 & H2).
  rewrite <- length_completeTriples in H0, H1, H2.
  rewrite Forall_forall in Hall.
  destruct (at_index_some _ _ H0) as (i0 & E0 & I0).
  destruct (at_index_some _ _ H1) as (i1 & E1 & I1).
  destruct (at_index_some _ _ H2) as (i2 & E2 & I2).
  apply Hall in I0, I1, I2.
  unfold triangleStep. cbv zeta. rewrite E0, E1, E2.
  rewrite (proj2 (N.ltb_lt _ _) I0), (proj2 (N.ltb_lt _ _) I1),
    (proj2 (N.ltb_lt _ _) I2). cbn [andb].
  pose proof (wrap32_le (N.of_nat (length points))) as Hw.
  destruct (at_index_some points i0) as (q1 & -> & _); [lia|].
  destruct (at_index_some points i1) as (q2 & -> & _); [lia|].
  destruct (at_index_some points i2) as (q3 & -> & _); [lia|].
  eauto.
Qed.

Lemma triangleLoop_some (points : VectorOfPoints) (idx : VectorOfIndices)
    (cs : list N) :
  (forall i st, In i cs -> exists st', triangleStep points idx st i = Some st') ->
  forall st, exists st', triangleLoop points idx cs st = Some st'.
Proof.
  induction cs as [|i cs IH]; intros H st; [simpl; eauto|].
  simpl. destruct (H i st) as (st1 & ->); [now left|].
  apply IH. intros j st2 Hj. apply H. now right.
Qed.

(** C4, as the code has it.  The length of the index list is never
    checked: whatever it is modulo 3, [computeMassProperties] returns a
    result as soon as every index among the complete triples is below the
    number of points; only those range assertions can end the run. *)
Theorem only_index_ranges_are_asserted (points : VectorOfPoints)
    (idx : VectorOfIndices) :
  Forall (fun a => (a < wrap32 (N.of_nat (length points)))%N)
         (firstn (3 * (length idx / 3)) idx) ->
  exists r, computeMassProperties points idx = Some r.
Proof.
  intros Hall. unfold computeMassProperties, computeMassProperties_from.
  destruct (triangleLoop_some points idx
              (counters (numTriangles idx))) with (st := initialTotals mzero)
    as (st & ->); [|eauto].
  intros i st Hi. apply triangleStep_some; [exact Hall|].
  now apply in_counters.
Qed.

Lemma only_index_ranges_are_asserted_witness :
  length [0; 1; 3; 9]%N mod 3 = 1
  /\ Forall (fun a => (a < wrap32 (N.of_nat (length cubePoints)))%N)
            (firstn (3 * (length [0; 1; 3; 9]%N / 3)) [0; 1; 3; 9]%N)
  /\ exists r, computeMassProperties cubePoints [0; 1; 3; 9]%N = Some r.
Proof.
  assert (H : Forall (fun a => (a < wrap32 (N.of_nat (length cubePoints)))%N)
                (firstn (3 * (length [0; 1; 3; 9]%N / 3)) [0; 1; 3; 9]%N))
    by (repeat constructor).
  split; [reflexivity|]. split; [exact H|].
  exact (only_index_ranges_are_asserted cubePoints [0; 1; 3; 9]%N H).
Defined.

Lemma cube_run :
  computeMassProperties cubePoints
    (cubeTriangles false false false false false false) = Some cubeResult.
Proof. apply same_result_eq. vm_compute. reflexivity. Qed.

(** C4 as stated fails: for the 36 indices of the cube followed by one more
    index, itself out of range, the run does not fail and returns the
    cube's result. *)
Lemma length_not_checked :
  length (cubeTriangles false false false false false false ++ [9%N]) mod 3 = 1
  /\ computeMassProperties cubePoints
       (cubeTriangles false false false false false false ++ [9%N])
     = Some cubeResult.
Proof.
  split; [reflexivity|]. apply same_result_eq. vm_compute. reflexivity.
Qed.

(** ** The triangle loop: symmetry of the accumulated tensor *)

Lemma triangleStep_inv (points : VectorOfPoints) (idx : VectorOfIndices)
    (st st' : Totals) (i : N) :
  triangleStep points idx st i = Some st' ->
  exists q1 q2 q3, st' = accumulateTetrahedron st q1 q2 q3.
Proof.
  unfold triangleStep. cbv zeta.
  destruct (at_index idx _); [|discriminate].
  destruct (at_index idx _); [|discriminate].
  destruct (at_index idx _); [|discriminate].
  destruct (_ && _ && _)%bool; [|discriminate].
  destruct (at_index points _) as [q1|]; [|discriminate].
  destruct (at_index points _) as [q2|]; [|discriminate].
  destruct (at_index points _) as [q3|]; [|discriminate].
  intros [= <-]. eauto.
Qed.

(** An iteration that completes has passed the three assertions and has run
    the loop body on the vertices p[i0], p[i1], p[i2] of its triangle. *)
Lemma triangleStep_accumulates (points : VectorOfPoints)
    (idx : VectorOfIndices) (st st' : Totals) (i : N) :
  triangleStep points idx st i = Some st' ->
  exists i0 i1 i2 q1 q2 q3,
    triangleAt idx i = Some (i0, i1, i2)
    /\ inRange (wrap32 (N.of_nat (length points))) (i0, i1, i2) = true
    /\ at_index points i0 = Some q1
    /\ at_index points i1 = Some q2
    /\ at_index points i2 = Some q3
    /\ st' = accumulateTetrahedron st q1 q2 q3.
Proof.
  unfold triangleStep, triangleAt, inRange. cbv zeta.
  destruct (at_index idx _) as [i0|]; [|discriminate].
  destruct (at_index idx _) as [i1|]; [|discriminate].
  destruct (at_index idx _) as [i2|]; [|discriminate].
  destruct (_ && _ && _)%bool eqn:R; [|discriminate].
  destruct (at_index points i0) as [q1|] eqn:E1; [|discriminate].
  destruct (at_index points i1) as [q2|] eqn:E2; [|discriminate].
  destruct (at_index points i2) as [q3|] eqn:E3; [|discriminate].
  intros [= <-]. exists i0, i1, i2, q1, q2, q3. auto 10.
Qed.

Lemma accumulateTetrahedron_symmetric (st : Totals) (q1 q2 q3 : btVector3) :
  symmetric (t_inertia st) ->
  symmetric (t_inertia (accumulateTetrahedron st q1 q2 q3)).
Proof.
  intros H. unfold accumulateTetrahedron. cbn [t_inertia].
  apply madd_symmetric; [assumption|].
  apply applyParallelAxisTheorem_symmetric,
    computeTetrahedronInertia_symmetric.
Qed.

Lemma triangleLoop_symmetric (points : VectorOfPoints) (idx : VectorOfIndices)
    (cs : list N) :
  forall st st', symmetric (t_inertia st) ->
                 triangleLoop points idx cs st = Some st' ->
                 symmetric (t_inertia st').
Proof.
  induction cs as [|i cs IH]; intros st st' Hs; simpl.
  - now intros [= <-].
  - destruct (triangleStep points idx st i) as [st1|] eqn:E; [|discriminate].
    apply IH. apply triangleStep_inv in E. destruct E as (q1 & q2 & q3 & ->).
    now apply accumulateTetrahedron_symmetric.
Qed.

(** C6.  Symmetry of the inertia tensor is kept by every operation:
    [computeTetrahedronInertia] always produces a symmetric matrix; the
    two parallel-axis routines send symmetric matrices to symmetric
    matrices; in [computeMassProperties] the accumulated tensor is symmetric
    after every number of iterations of the loop, and so is the final
    [m_inertia]. *)
Theorem inertia_symmetry_invariant :
  (forall mass points inertia,
      symmetric (computeTetrahedronInertia mass points inertia))
  /\ (forall inertia shift mass,
         symmetric inertia ->
         symmetric (applyParallelAxisTheorem inertia shift mass))
  /\ (forall inertia shift mass,
         symmetric inertia ->
         symmetric (applyInverseParallelAxisTheorem inertia shift mass))
  /\ (forall points triangleIndices k u st,
         totalsAfter k u points triangleIndices = Some st ->
         symmetric (t_inertia st))
  /\ (forall points triangleIndices r,
         computeMassProperties points triangleIndices = Some r ->
         symmetric (m_inertia r)).
Proof.
  split; [exact computeTetrahedronInertia_symmetric|].
  split; [exact applyParallelAxisTheorem_symmetric|].
  split; [exact applyInverseParallelAxisTheorem_symmetric|].
  split.
  - intros points idx k u st H. unfold totalsAfter in H.
    eapply triangleLoop_symmetric; [|exact H]. exact mzero_symmetric.
  - intros points idx r. unfold computeMassProperties, computeMassProperties_from.
    destruct (triangleLoop _ _ _ _) as [st|] eqn:E; [|discriminate].
    intros [= <-]. unfold finish. cbn [m_inertia].
    apply applyInverseParallelAxisTheorem_symmetric.
    eapply triangleLoop_symmetric; [|exact E]. exact mzero_symmetric.
Qed.

Lemma inertia_symmetry_invariant_witness :
  symmetric mzero
  /\ computeMassProperties cubePoints
       (cubeTriangles false false false false false false) = Some cubeResult
  /\ symmetric (applyParallelAxisTheorem mzero (corner true true false) f1)
  /\ symmetric (applyInverseParallelAxisTheorem mzero (corner true true false) f1)
  /\ symmetric (m_inertia cubeResult).
Proof.
  destruct inertia_symmetry_invariant as (_ & Hf & Hi & _ & Hr).
  split; [exact mzero_symmetric|].
  split; [exact cube_run|].
  split; [apply Hf; exact mzero_symmetric|].
  split; [apply Hi; exact mzero_symmetric|].
  apply (Hr cubePoints (cubeTriangles false false false false false false)).
  exact cube_run.
Defined.

(** ** The start value of [tetraInertia] *)

Lemma computeTetrahedronInertia_overwrites (mass : btScalar)
    (points : TetraPoints) (a b : btMatrix3x3) :
  computeTetrahedronInertia mass points a
  = computeTetrahedronInertia mass points b.
Proof. now rewrite !computeTetrahedronInertia_unrolled. Qed.

Lemma accumulateTetrahedron_any (st : Totals) (u : btMatrix3x3)
    (q1 q2 q3 : btVector3) :
  accumulateTetrahedron
    (mkTotals (t_volume st) (t_weightedCenter st) (t_inertia st) u) q1 q2 q3
  = accumulateTetrahedron st q1 q2 q3.
Proof.
  unfold accumulateTetrahedron. cbn [t_volume t_weightedCenter t_inertia t_tetraInertia].
  now rewrite (computeTetrahedronInertia_overwrites _ _ u (t_tetraInertia st)).
Qed.

Lemma triangleStep_any (points : VectorOfPoints) (idx : VectorOfIndices)
    (st : Totals) (u : btMatrix3x3) (i : N) :
  triangleStep points idx
    (mkTotals (t_volume st) (t_weightedCenter st) (t_inertia st) u) i
  = triangleStep points idx st i.
Proof.
  unfold triangleStep. cbv zeta.
  repeat match goal with
         | |- context [match ?x with _ => _ end] => destruct x
         end;
  first [apply f_equal, accumulateTetrahedron_any | reflexivity].
Qed.

(** The result does not depend on what [tetraInertia] holds before the
    loop. *)
Lemma computeMassProperties_from_any (u : btMatrix3x3)
    (points : VectorOfPoints) (idx : VectorOfIndices) :
  computeMassProperties_from u points idx = computeMassProperties points idx.
Proof.
  unfold computeMassProperties, computeMassProperties_from.
  destruct (counters (numTriangles idx)) as [|i cs]; [reflexivity|].
  simpl. unfold initialTotals.
  pose proof (triangleStep_any points idx (mkTotals f0 vzero mzero mzero) u i)
    as E.
  cbn [t_volume t_weightedCenter t_inertia] in E. now rewrite E.
Qed.

(** ** Zero total volume *)

Lemma fdiv_zero_not_finite (x : btScalar) : is_finite (x / f0)%bt = false.
Proof.
  assert (Z : (0 ?= 0)%Qc = Eq) by reflexivity.
  destruct x as [a| | |]; unfold f0, fdiv, is_zero; rewrite ?Z;
    try reflexivity.
  now destruct (a ?= 0)%Qc.
Qed.

(** C3, as the code has it.  When the loop ends with the total volume 0,
    [computeMassProperties] raises nothing: it returns, with [m_volume] 0
    and with no component of [m_centerOfMass] finite (each is NaN or an
    infinity). *)
Theorem zero_volume_is_silent (points : VectorOfPoints)
    (triangleIndices : VectorOfIndices) :
  accumulatedVolume points triangleIndices = Some f0 ->
  exists r, computeMassProperties points triangleIndices = Some r
            /\ m_volume r = f0
            /\ no_finite_component (m_centerOfMass r).
Proof.
  unfold accumulatedVolume, loopTotals, computeMassProperties,
    computeMassProperties_from.
  destruct (triangleLoop _ _ _ _) as [st|]; [|discriminate].
  cbn [option_map]. intros [= E]. exists (finish st).
  split; [reflexivity|]. unfold finish. cbn [m_volume m_centerOfMass].
  split; [assumption|]. rewrite E. unfold no_finite_component, vdiv.
  cbn [vx vy vz]. now rewrite !fdiv_zero_not_finite.
Qed.

Lemma zero_volume_is_silent_witness :
  accumulatedVolume cubePoints sheetTriangles = Some f0
  /\ exists r, computeMassProperties cubePoints sheetTriangles = Some r
               /\ m_volume r = f0
               /\ no_finite_component (m_centerOfMass r).
Proof.
  assert (E : accumulatedVolume cubePoints sheetTriangles = Some f0).
  { vm_compute. do 2 f_equal. apply Qc_is_canon. reflexivity. }
  split; [exact E|].
  exact (zero_volume_is_silent cubePoints sheetTriangles E).
Defined.

(** C3 as stated fails: for the empty triangle list the run ends without
    any error and the center of mass is (NaN, NaN, NaN); for an open
    surface whose two tetrahedra cancel it is (-infinity, NaN, NaN), again
    without any error. *)
Lemma zero_volume_no_error :
  computeMassProperties [] [] = Some (mkMesh f0 (mkVec NaN NaN NaN) mzero)
  /\ computeMassProperties cubePoints sheetTriangles = Some sheetResult.
Proof.
  split; apply same_result_eq; vm_compute; reflexivity.
Qed.

(** ** The center of a tetrahedron *)

Lemma tetraCenter_finite (a b c : qvec) :
  tetraCenter (finV a) (finV b) (finV c)
  = finV (qscale (qc 1 4) (qadd (qadd a b) c)).
Proof.
  unfold tetraCenter, vscale, vadd, finV, qscale, qadd.
  cbn [vx vy vz qx qy qz]. unfold f0_25. fin_arith.
  f_equal; f_equal; ring.
Qed.

(** C2, as the code has it.  The loop body, run on the triangle with the
    vertices a = p[i0], b = p[i1], c = p[i2], uses as the center of the
    tetrahedron one quarter of a + b + c (the mean of the four corners
    0, a, b, c): this is the offset and the reference point of the
    parallel-axis shift and the point weighted into [weightedCenter]. *)
Theorem tetrahedron_center_is_quarter_sum (st : Totals) (a b c : qvec) :
  let center := qscale (qc 1 4) (qadd (qadd a b) c) in
  let volume := computeTetrahedronVolume (tetra qzero a b c) in
  let st' := accumulateTetrahedron st (finV a) (finV b) (finV c) in
  tetraCenter (finV a) (finV b) (finV c) = finV center
  /\ t_weightedCenter st'
     = vadd (t_weightedCenter st) (vscale volume (finV center))
  /\ t_tetraInertia st'
     = applyParallelAxisTheorem
         (computeTetrahedronInertia volume
            (tetra (qsub qzero center) (qsub a center) (qsub b center)
                   (qsub c center))
            mzero)
         (finV center) volume.
Proof.
  cbv zeta. split; [apply tetraCenter_finite|].
  unfold accumulateTetrahedron.
  cbn [t_weightedCenter t_tetraInertia tp0 tp1 tp2 tp3].
  rewrite !tetraCenter_finite. split; [reflexivity|].
  rewrite (computeTetrahedronInertia_overwrites _ _ (t_tetraInertia st) mzero).
  reflexivity.
Qed.

Lemma same_scalar_refl (x : btScalar) : same_scalar x x = true.
Proof. destruct x; simpl; auto. apply Qeq_bool_iff. reflexivity. Qed.

Lemma same_vector_neq (a b : btVector3) : same_vector a b = false -> a <> b.
Proof.
  intros H E. subst b. unfold same_vector in H.
  now rewrite !same_scalar_refl in H.
Qed.

(** C2 as stated fails: for the triangle (4,0,0), (0,4,0), (0,0,4) the
    center that the loop uses is (1,1,1), not the average (4/3,4/3,4/3) of
    the three vertices, and (1,1,1) is the center of mass returned. *)
Lemma center_is_not_triangle_average :
  let a := finV (mkQ (qc 4 1) 0%Qc 0%Qc) in
  let b := finV (mkQ 0%Qc (qc 4 1) 0%Qc) in
  let c := finV (mkQ 0%Qc 0%Qc (qc 4 1)) in
  tetraCenter a b c = mkVec f1 f1 f1
  /\ triangleAverage a b c
     = mkVec (Finite (qc 4 3)) (Finite (qc 4 3)) (Finite (qc 4 3))
  /\ tetraCenter a b c <> triangleAverage a b c
  /\ option_map m_centerOfMass (computeMassProperties [a; b; c] [0; 1; 2]%N)
     = Some (mkVec f1 f1 f1).
Proof.
  cbv zeta. refine (conj _ (conj _ (conj _ _))).
  - apply same_vector_eq. vm_compute. reflexivity.
  - apply same_vector_eq. vm_compute. reflexivity.
  - apply same_vector_neq. vm_compute. reflexivity.
  - vm_compute. f_equal. apply same_vector_eq. vm_compute. reflexivity.
Qed.

(** ** The leaf routines on finite values *)













(** ** What one iteration adds to finite totals *)



(** ** Algebra of moments *)















(** ** The loop as a fold over the triples of the index list *)

Lemma triangleStep_stepOn (points : VectorOfPoints) (idx : VectorOfIndices)
    (st : Totals) (i : N) :
  triangleStep points idx st i
  = match triangleAt idx i with
    | Some tri => stepOn points st tri
    | None => None
    end.
Proof.
  unfold triangleStep, triangleAt, stepOn, inRange. cbv zeta.
  destruct (at_index idx _); [|reflexivity].
  destruct (at_index idx _); [|reflexivity].
  destruct (at_index idx _); reflexivity.
Qed.

Lemma triangleLoop_foldTriples (points : VectorOfPoints)
    (idx : VectorOfIndices) (cs : list N) :
  forall (tris : list Triangle) (st : Totals),
    map (triangleAt idx) cs = map Some tris ->
    triangleLoop points idx cs st = foldTriples points tris st.
Proof.
  induction cs as [|i cs IH]; intros [|tri tris] st E; try discriminate.
  - reflexivity.
  - simpl in E. injection E as E1 E2. simpl.
    rewrite triangleStep_stepOn, E1.
    destruct (stepOn points st tri); [now apply IH|reflexivity].
Qed.

Lemma nth_error_triples (k : nat) :
  forall l : VectorOfIndices,
    nth_error (triples l) k
    = match nth_error l (3 * k), nth_error l (3 * k + 1),
            nth_error l (3 * k + 2) with
      | Some i0, Some i1, Some i2 => Some (i0, i1, i2)
      | _, _, _ => None
      end.
Proof.
  induction k as [|k IH]; intros l.
  - destruct l as [|a [|b [|c r]]]; reflexivity.
  - replace (3 * S k) with (S (S (S (3 * k)))) by lia.
    destruct l as [|a [|b [|c r]]].
    4: { cbn [triples nth_error Nat.add]. rewrite IH. reflexivity. }
    all: match goal with
         | |- _ = match nth_error ?l ?n with _ => _ end =>
             replace (nth_error l n) with (@None N)
               by (symmetry; apply nth_error_None; simpl; lia)
         end; reflexivity.
Qed.

Lemma length_triples (n : nat) :
  forall l : VectorOfIndices, length l <= n -> length (triples l) = length l / 3.
Proof.
  induction n as [|n IH]; intros l H.
  - destruct l; [reflexivity|simpl in H; lia].
  - destruct l as [|a [|b [|c r]]]; try reflexivity.
    cbn [triples length]. rewrite IH by (simpl in H; lia).
    change (S (S (S (length r)))) with (3 + length r).
    replace (3 + length r) with (length r + 1 * 3) by lia.
    rewrite Nat.div_add by lia. lia.
Qed.

Lemma map_seq_nth_error (A : Type) (l : list A) :
  forall f : nat -> option A,
    (forall k, k < length l -> f k = nth_error l k) ->
    map f (seq 0 (length l)) = map Some l.
Proof.
  induction l as [|x l IH]; intros f H; [reflexivity|].
  cbn [length seq map]. rewrite (H 0) by (simpl; lia). cbn [nth_error].
  f_equal. rewrite <- seq_shift, map_map. apply IH.
  intros k Hk. apply (H (S k)). simpl. lia.
Qed.

Lemma wrap32_small (n : N) : (n < 2 ^ 32)%N -> wrap32 n = n.
Proof. intros H. unfold wrap32. now apply N.mod_small. Qed.

Lemma triangleAt_nth_error (idx : VectorOfIndices) (k : nat) :
  (N.of_nat (length idx) < 2 ^ 32)%N ->
  k < length idx / 3 ->
  triangleAt idx (N.of_nat k) = nth_error (triples idx) k.
Proof.
  intros Hlen Hk.
  pose proof (Nat.Div0.mul_div_le (length idx) 3) as Hd.
  unfold triangleAt. cbv zeta.
  rewrite (wrap32_small (n := 3 * N.of_nat k)) by lia.
  rewrite !wrap32_small by lia.
  unfold at_index. rewrite nth_error_triples.
  replace (N.to_nat (3 * N.of_nat k)) with (3 * k) by lia.
  replace (N.to_nat (3 * N.of_nat k + 1)) with (3 * k + 1) by lia.
  replace (N.to_nat (3 * N.of_nat k + 2)) with (3 * k + 2) by lia.
  reflexivity.
Qed.

Lemma numTriangles_small (idx : VectorOfIndices) :
  (N.of_nat (length idx) < 2 ^ 32)%N ->
  numTriangles idx = N.of_nat (length (triples idx)).
Proof.
  intros Hlen. unfold numTriangles.
  rewrite (length_triples (n := length idx)) by lia.
  change 3%N with (N.of_nat 3). rewrite <- Nat2N.inj_div.
  apply wrap32_small.
  pose proof (Nat.Div0.div_le_upper_bound (length idx) 3 (length idx)).
  lia.
Qed.

Lemma loop_visits_triples (idx : VectorOfIndices) :
  (N.of_nat (length idx) < 2 ^ 32)%N ->
  map (triangleAt idx) (counters (numTriangles idx)) = map Some (triples idx).
Proof.
  intros Hlen. rewrite numTriangles_small by assumption.
  unfold counters. rewrite Nat2N.id, map_map.
  apply map_seq_nth_error. intros k Hk.
  apply triangleAt_nth_error; [assumption|].
  now rewrite <- (length_triples (n := length idx)) by lia.
Qed.

Lemma loopTotals_foldTriples (points : VectorOfPoints) (idx : VectorOfIndices) :
  (N.of_nat (length idx) < 2 ^ 32)%N ->
  loopTotals points idx
  = foldTriples points (triples idx) (initialTotals mzero).
Proof.
  intros Hlen. unfold loopTotals.
  apply triangleLoop_foldTriples. now apply loop_visits_triples.
Qed.

(** ** The loop on a mesh with finite vertices *)

Section FiniteVertices.

Variable points : VectorOfPoints.
Variable pt : N -> qvec.

Local Abbreviation numPoints := (wrap32 (N.of_nat (length points))).

Hypothesis points_finite :
  forall i : N, (i < numPoints)%N -> at_index points i = Some (finV (pt i)).


Lemma stepOn_inRange (st st' : Totals) (tri : Triangle) :
  stepOn points st tri = Some st' -> inRange numPoints tri = true.
Proof.
  destruct tri as [[i0 i1] i2]. unfold stepOn.
  now destruct (inRange numPoints (i0, i1, i2)).
Qed.

Lemma foldTriples_inRange (tris : list Triangle) :
  forall st st', foldTriples points tris st = Some st' ->
                 forallb (inRange numPoints) tris = true.
Proof.
  induction tris as [|tri tris IH]; intros st st' H; [reflexivity|].
  simpl in H. destruct (stepOn points st tri) as [st1|] eqn:E; [|discriminate].
  simpl. rewrite (stepOn_inRange _ _ E). simpl. eapply IH; eauto.
Qed.


End FiniteVertices.





(** ** Sums of moments *)









(** ** Closed meshes: the edge terms cancel *)









(** ** Translation of the mesh *)




Lemma computeMassProperties_loopTotals (points : VectorOfPoints)
    (idx : VectorOfIndices) :
  computeMassProperties points idx = option_map finish (loopTotals points idx).
Proof. reflexivity. Qed.




(** ** The box formula *)

(** The inertia found for the unit cube is the one [computeBoxInertia]
    gives for the mass 1 and the diagonal (1, 1, 1). *)
Lemma cube_inertia_is_box_inertia :
  computeBoxInertia f1 (mkVec f1 f1 f1) mzero = m_inertia cubeResult.
Proof. apply same_matrix_eq. vm_compute. reflexivity. Qed.

(** ** Further properties of computeTetrahedronVolume *)

(** X1.  Moving the four points of a tetrahedron by the same vector does
    not change the volume that [computeTetrahedronVolume] returns. *)
Theorem computeTetrahedronVolume_translation (t p0 p1 p2 p3 : qvec) :
  computeTetrahedronVolume
    (tetra (qadd p0 t) (qadd p1 t) (qadd p2 t) (qadd p3 t))
  = computeTetrahedronVolume (tetra p0 p1 p2 p3).
Proof.
  rewrite !computeTetrahedronVolume_finite. f_equal.
  unfold faceVolume, qdot, qcross, qsub, qadd. cbn [qx qy qz]. qc_field.
Qed.



(** ** Further properties of computeTetrahedronInertia *)




(** ** Further properties of the parallel-axis routines *)

Lemma length2_nan_x (y z : btScalar) : length2 (mkVec NaN y z) = NaN.
Proof. reflexivity. Qed.

Lemma fadd_nan_r (x : btScalar) : (x + NaN)%bt = NaN.
Proof. now destruct x. Qed.

Lemma length2_nan_y (x z : btScalar) : length2 (mkVec x NaN z) = NaN.
Proof. unfold length2, dot. cbn [vx vy vz]. cbn [fmul]. now rewrite fadd_nan_r. Qed.

Lemma length2_nan_z (x y : btScalar) : length2 (mkVec x y NaN) = NaN.
Proof. unfold length2, dot. cbn [vx vy vz]. cbn [fmul]. now rewrite fadd_nan_r. Qed.

(** X7.  With the zero offset, or an offset with a NaN component, both
    parallel-axis routines and [computePointInertia] leave the tensor they
    are given exactly as it is, for every tensor and every mass; in
    particular [computePointInertia] does not set it to zero. *)
Theorem no_shift_for_zero_or_nan_offset (inertia : btMatrix3x3)
    (mass x y : btScalar) (s : btVector3) :
  s = vzero \/ s = mkVec NaN x y \/ s = mkVec x NaN y \/ s = mkVec x y NaN ->
  applyParallelAxisTheorem inertia s mass = inertia
  /\ applyInverseParallelAxisTheorem inertia s mass = inertia
  /\ computePointInertia s mass inertia = inertia.
Proof.
  intros H.
  assert (G : fgt (length2 s) f0 = false).
  { destruct H as [-> | [-> | [-> | ->]]];
      rewrite ?length2_nan_x, ?length2_nan_y, ?length2_nan_z; reflexivity. }
  unfold applyParallelAxisTheorem, applyInverseParallelAxisTheorem,
    computePointInertia. cbv zeta. now rewrite G.
Qed.

Lemma no_shift_for_zero_or_nan_offset_witness :
  applyParallelAxisTheorem midentity (mkVec f1 NaN PosInf) f1 = midentity
  /\ applyInverseParallelAxisTheorem midentity (mkVec f1 NaN PosInf) f1
     = midentity
  /\ computePointInertia (mkVec f1 NaN PosInf) f1 midentity = midentity.
Proof.
  apply (@no_shift_for_zero_or_nan_offset midentity f1 f1 PosInf
           (mkVec f1 NaN PosInf)).
  right. right. left. reflexivity.
Defined.






(** ** computePointInertia *)





(** ** The box formula and the mesh of a box *)







(** ** From the moments of a mesh to the result *)



(** ** The mesh of a box *)






(** ** The mesh of one tetrahedron *)



(** ** Runs on meshes with finite vertices *)






(** ** Uniform scaling *)









(** ** Which runs fail *)

Lemma stepOn_some (points : VectorOfPoints) (st : Totals) (tri : Triangle) :
  inRange (wrap32 (N.of_nat (length points))) tri = true ->
  exists st', stepOn points st tri = Some st'.
Proof.
  destruct tri as [[i0 i1] i2]. intros H. unfold stepOn. rewrite H.
  unfold inRange in H. apply andb_true_iff in H. destruct H as [H H2].
  apply andb_true_iff in H. destruct H as [H0 H1].
  apply N.ltb_lt in H0, H1, H2.
  pose proof (wrap32_le (N.of_nat (length points))) as Hw.
  destruct (at_index_some points i0) as (q1 & -> & _); [lia|].
  destruct (at_index_some points i1) as (q2 & -> & _); [lia|].
  destruct (at_index_some points i2) as (q3 & -> & _); [lia|].
  eauto.
Qed.

Lemma foldTriples_some (points : VectorOfPoints) (tris : list Triangle) :
  forallb (inRange (wrap32 (N.of_nat (length points)))) tris = true ->
  forall st, exists st', foldTriples points tris st = Some st'.
Proof.
  induction tris as [|tri tris IH]; intros H st; [simpl; eauto|].
  simpl in H. apply andb_true_iff in H. destruct H as [H1 H2].
  destruct (stepOn_some points st tri H1) as (st1 & E).
  cbn [foldTriples]. rewrite E. now apply IH.
Qed.

Lemma foldTriples_none (points : VectorOfPoints) (tris : list Triangle)
    (st : Totals) :
  forallb (inRange (wrap32 (N.of_nat (length points)))) tris = false ->
  foldTriples points tris st = None.
Proof.
  intros H. destruct (foldTriples points tris st) as [st'|] eqn:E;
    [|reflexivity].
  apply foldTriples_inRange in E. congruence.
Qed.

Lemma forallb_false_exists (A : Type) (f : A -> bool) (l : list A) :
  forallb f l = false <-> exists x, In x l /\ f x = false.
Proof.
  induction l as [|y l IH]; simpl.
  - split; [discriminate|]. now intros (x & [] & _).
  - rewrite andb_false_iff, IH. split.
    + intros [H|(x & H1 & H2)]; eauto.
    + intros (x & [->|H1] & H2); eauto.
Qed.

(** X15.  For an index list shorter than 2^32, [computeMassProperties]
    fails exactly when some triangle of the list has an index that is not
    below the number of points: every such index is caught by an assertion,
    and nothing else makes the run fail. *)
Theorem fails_iff_index_out_of_range (points : VectorOfPoints)
    (idx : VectorOfIndices) :
  (N.of_nat (length idx) < 2 ^ 32)%N ->
  (computeMassProperties points idx = None
   <-> exists tri, In tri (triples idx)
                   /\ inRange (wrap32 (N.of_nat (length points))) tri = false).
Proof.
  intros Hlen. rewrite computeMassProperties_loopTotals,
    loopTotals_foldTriples by assumption.
  rewrite <- forallb_false_exists. split.
  - intros H.
    destruct (forallb (inRange (wrap32 (N.of_nat (length points))))
                (triples idx)) eqn:F; [|reflexivity].
    destruct (foldTriples_some points (triples idx) F (initialTotals mzero))
      as (st & E).
    rewrite E in H. discriminate.
  - intros F. now rewrite foldTriples_none.
Qed.

Lemma fails_iff_index_out_of_range_witness :
  computeMassProperties cubePoints [0; 1; 8]%N = None
  <-> exists tri, In tri (triples [0; 1; 8]%N)
                  /\ inRange (wrap32 (N.of_nat (length cubePoints))) tri = false.
Proof.
  apply (@fails_iff_index_out_of_range cubePoints [0; 1; 8]%N). reflexivity.
Defined.

(** ** The order of the triangles *)




(** ** Reversed winding *)







(** ** Fewer than three indices, and the start value of tetraInertia *)

(** X18.  With fewer than three indices (one or two stray indices, or
    none) the loop does not run, whatever the points are: the volume is 0,
    the center of mass is (NaN, NaN, NaN) and the inertia tensor is zero,
    and no index is range-checked. *)
Theorem fewer_than_three_indices (points : VectorOfPoints)
    (idx : VectorOfIndices) :
  length idx < 3 ->
  computeMassProperties points idx
  = Some (mkMesh f0 (mkVec NaN NaN NaN) mzero).
Proof.
  intros H. destruct idx as [|a [|b [|c rest]]];
    [reflexivity|reflexivity|reflexivity|simpl in H; lia].
Qed.

Lemma fewer_than_three_indices_witness :
  computeMassProperties [] [7; 9]%N
  = Some (mkMesh f0 (mkVec NaN NaN NaN) mzero).
Proof.
  apply (@fewer_than_three_indices [] [7; 9]%N). simpl. lia.
Defined.

(** X19.  The local [tetraInertia], which the source leaves without a start
    value, never reaches the result: whatever two matrices it holds before
    the loop, the result is the same. *)
Theorem uninitialized_tetraInertia_is_harmless (u u' : btMatrix3x3)
    (points : VectorOfPoints) (idx : VectorOfIndices) :
  computeMassProperties_from u points idx
  = computeMassProperties_from u' points idx.
Proof. now rewrite !computeMassProperties_from_any. Qed.

(** ** The first vertex of a triangle *)







(** ** Points that no triangle uses *)

Lemma at_index_app (A : Type) (l l' : list A) (i : N) :
  N.to_nat i < length l -> at_index (l ++ l') i = at_index l i.
Proof. intros H. unfold at_index. now apply nth_error_app1. Qed.

Lemma stepOn_more_points (points extra : VectorOfPoints) (st st' : Totals)
    (tri : Triangle) :
  (N.of_nat (length (points ++ extra)) < 2 ^ 32)%N ->
  stepOn points st tri = Some st' ->
  stepOn (points ++ extra) st tri = Some st'.
Proof.
  intros Hlen H. pose proof (@stepOn_inRange points st st' tri H) as R.
  destruct tri as [[i0 i1] i2]. unfold stepOn in *. rewrite R in H.
  unfold inRange in *.
  apply andb_true_iff in R. destruct R as [R R2].
  apply andb_true_iff in R. destruct R as [R0 R1].
  apply N.ltb_lt in R0, R1, R2.
  pose proof (wrap32_le (N.of_nat (length points))) as Hw.
  rewrite (wrap32_small Hlen). rewrite length_app in *.
  rewrite !(proj2 (N.ltb_lt _ _)) by lia. cbn [andb].
  rewrite !at_index_app by lia. exact H.
Qed.

Lemma triangleLoop_more_points (points extra : VectorOfPoints)
    (idx : VectorOfIndices) (cs : list N) :
  (N.of_nat (length (points ++ extra)) < 2 ^ 32)%N ->
  forall st st',
    triangleLoop points idx cs st = Some st' ->
    triangleLoop (points ++ extra) idx cs st = Some st'.
Proof.
  intros Hlen. induction cs as [|i cs IH]; intros st st' H; [exact H|].
  cbn [triangleLoop] in *. rewrite triangleStep_stepOn in *.
  destruct (triangleAt idx i) as [tri|]; [|discriminate].
  destruct (stepOn points st tri) as [st1|] eqn:E; [|discriminate].
  rewrite (@stepOn_more_points points extra st st1 tri Hlen E). now apply IH.
Qed.

(** X21.  Points that follow in the vertex buffer and that no triangle
    names do not change the result: when [computeMassProperties] returns a
    result for some points, it returns the same result with further points
    appended (fewer than 2^32 points in all). *)
Theorem unused_points_ignored (points extra : VectorOfPoints)
    (idx : VectorOfIndices) (r : MeshMassProperties) :
  (N.of_nat (length (points ++ extra)) < 2 ^ 32)%N ->
  computeMassProperties points idx = Some r ->
  computeMassProperties (points ++ extra) idx = Some r.
Proof.
  intros Hlen. unfold computeMassProperties, computeMassProperties_from.
  destruct (triangleLoop points idx _ _) as [st|] eqn:E; [|discriminate].
  now rewrite (@triangleLoop_more_points points extra idx _ Hlen _ _ E).
Qed.

Lemma unused_points_ignored_witness :
  computeMassProperties (cubePoints ++ [mkVec NaN PosInf f1])
    (cubeTriangles false false false false false false) = Some cubeResult.
Proof.
  apply (@unused_points_ignored cubePoints [mkVec NaN PosInf f1]
           (cubeTriangles false false false false false false) cubeResult).
  - reflexivity.
  - exact cube_run.
Defined.

(** ** Sub-meshes *)





(** ** Signs of the diagonal of the tetrahedron tensor *)





